(** * CLinuxAffinity: the processor-affinity probe of SwiftyRequest

    A shallow embedding of [Sources/CLinuxAffinity/ProcessorAffinity.c]
    and the properties of its single entry point,
    [linux_sched_getaffinity].

    The C function asks the kernel for the affinity mask of the calling
    process, asks for the number of online processors, and counts the
    processors below that number whose bit is set in the mask.  It
    returns [-1] when the first query fails.

    Integers are modelled as [Z] with the conversions of an LP64 Linux
    target written out.  The two system calls and the [cpu_set_t]
    interface of [<sched.h>] are not part of the repository: they are
    the fields of the class [LinuxAPI], over which the function is
    defined.  A concrete instance (the glibc macros over a scripted
    kernel) is given in the modules [Glibc] and [Scripted]. *)

From Stdlib Require Import ZArith List Bool Lia Permutation Finite.
Import ListNotations.
Local Open Scope Z_scope.

(** ** C integer types (LP64) *)

Definition INT_MIN : Z := -2147483648.
Definition INT_MAX : Z := 2147483647.
Definition LONG_MIN : Z := -9223372036854775808.
Definition LONG_MAX : Z := 9223372036854775807.

Definition is_int (z : Z) : Prop := INT_MIN <= z <= INT_MAX.
Definition is_long (z : Z) : Prop := LONG_MIN <= z <= LONG_MAX.

(** Conversion to [int]: reduction modulo 2^32 into the signed range.
    This is what [return count;] does to the [long] it returns. *)
Definition to_int (z : Z) : Z := (z + 2147483648) mod 4294967296 - 2147483648.

(** Conversion to [long]: reduction modulo 2^64 into the signed range. *)
Definition to_long (z : Z) : Z :=
  (z + 9223372036854775808) mod 18446744073709551616 - 9223372036854775808.

(** Conversion to [size_t] (an unsigned 64-bit integer). *)
Definition to_size_t (z : Z) : Z := z mod 18446744073709551616.

(** [long] addition, as used by [i++] and [count += 1]. *)
Definition long_add (a b : Z) : Z := to_long (a + b).

(** ** The operating-system interface

    What the translation unit takes from [<sched.h>] and [<unistd.h>].
    [World] is the state of the process and of the system, which the
    two calls receive and hand back.  [sched_getaffinity pid size]
    yields its [int] result together with the content of the
    caller's buffer after the call; when it fails that content is
    whatever the buffer held, and the C code does not look at it. *)
Class LinuxAPI : Type := {
  World : Type;
  cpu_set_t : Type;
  CPU_SETSIZE : Z;
  sizeof_cpu_set_t : Z;
  CPU_ISSET : Z -> cpu_set_t -> bool;
  _SC_NPROCESSORS_ONLN : Z;
  sched_getaffinity : Z -> Z -> World -> (Z * cpu_set_t) * World;
  sysconf : Z -> World -> Z * World
}.

(** The mask has a fixed capacity: no processor number at or above
    [CPU_SETSIZE] is ever reported as set, and the capacity itself is
    an [int]. *)
Definition cpu_set_bounded `{LinuxAPI} : Prop :=
  CPU_SETSIZE <= INT_MAX /\
  forall (cpu : Z) (set : cpu_set_t),
    0 <= cpu <= LONG_MAX -> CPU_ISSET cpu set = true -> cpu < CPU_SETSIZE.

(** Both calls are queries: they hand the world back as they got it. *)
Definition read_only_queries `{LinuxAPI} : Prop :=
  (forall pid size w, snd (sched_getaffinity pid size w) = w) /\
  (forall name w, snd (sysconf name w) = w).

(** ** Computations that call the operating system *)

Definition OS `{LinuxAPI} (A : Type) : Type := World -> A * World.

Definition ret `{LinuxAPI} {A : Type} (a : A) : OS A := fun w => (a, w).

Definition bind `{LinuxAPI} {A B : Type} (c : OS A) (k : A -> OS B) : OS B :=
  fun w => let (a, w') := c w in k a w'.

Notation "x <- c ;; k" := (bind c (fun x => k))
  (at level 61, c at next level, right associativity).
Notation "' pat <- c ;; k" := (bind c (fun x => match x with pat => k end))
  (at level 61, pat pattern, c at next level, right associativity).

(** ** The function

    The loop [for (i = 0; i < nproc; i++) if (CPU_ISSET(i, &mask)) count += 1;]
    started in the state [(i, count)].  Each unit of fuel pays for one
    evaluation of the loop condition; [None] means the fuel ran out
    before the condition became false. *)
Fixpoint for_loop `{LinuxAPI} (fuel : nat) (nproc : Z) (mask : cpu_set_t)
    (i count : Z) : option Z :=
  match fuel with
  | O => None
  | S fuel' =>
      if i <? nproc then
        for_loop fuel' nproc mask (long_add i 1)
          (if CPU_ISSET i mask then long_add count 1 else count)
      else Some count
  end.

Definition linux_sched_getaffinity `{LinuxAPI} (fuel : nat) : OS (option Z) :=
  '(rc, mask) <- sched_getaffinity 0 sizeof_cpu_set_t ;;
  if rc =? -1 then
    ret (Some (-1))
  else
    nproc <- sysconf _SC_NPROCESSORS_ONLN ;;
    ret (option_map to_int (for_loop fuel nproc mask 0 0)).

(** [returns w r w']: called in world [w], the function returns [r] and
    leaves the world [w']. *)
Definition returns `{LinuxAPI} (w : World) (r : Z) (w' : World) : Prop :=
  exists fuel : nat, linux_sched_getaffinity fuel w = (Some r, w').

(** ** What one call observes *)

(** The [int] returned by the affinity query made in world [w]. *)
Definition query_ret `{LinuxAPI} (w : World) : Z :=
  fst (fst (sched_getaffinity 0 sizeof_cpu_set_t w)).

(** The mask it retrieved. *)
Definition query_mask `{LinuxAPI} (w : World) : cpu_set_t :=
  snd (fst (sched_getaffinity 0 sizeof_cpu_set_t w)).

(** The world after the affinity query. *)
Definition world_after_query `{LinuxAPI} (w : World) : World :=
  snd (sched_getaffinity 0 sizeof_cpu_set_t w).

(** The online processor count reported by [sysconf] after the
    affinity query. *)
Definition online_cpu_count `{LinuxAPI} (w : World) : Z :=
  fst (sysconf _SC_NPROCESSORS_ONLN (world_after_query w)).

(** The world after both queries. *)
Definition world_after_count `{LinuxAPI} (w : World) : World :=
  snd (sysconf _SC_NPROCESSORS_ONLN (world_after_query w)).

(** ** The count the specification speaks of *)

(** The processor numbers [0 .. nproc - 1], in increasing order. *)
Definition cpu_indices (nproc : Z) : list Z :=
  map Z.of_nat (seq 0 (Z.to_nat nproc)).

(** The processors below [nproc] that are set in [mask]. *)
Definition cpus_in_mask `{LinuxAPI} (mask : cpu_set_t) (nproc : Z) : list Z :=
  filter (fun i => CPU_ISSET i mask) (cpu_indices nproc).

(** How many there are. *)
Definition affinity_count `{LinuxAPI} (mask : cpu_set_t) (nproc : Z) : Z :=
  Z.of_nat (length (cpus_in_mask mask nproc)).

(** ** The glibc [cpu_set_t]

    The definitions of glibc's [<bits/cpu-set.h>] on a 64-bit target:
    a set is an array of [__CPU_SETSIZE / __NCPUBITS] words of type
    [unsigned long]. *)
Module Glibc.

Definition __CPU_SETSIZE : Z := 1024.
Definition sizeof_cpu_mask : Z := 8.
Definition __NCPUBITS : Z := 8 * sizeof_cpu_mask.

Record cpu_set_t : Type := { __bits : list Z }.

Definition sizeof_cpu_set_t : Z :=
  (__CPU_SETSIZE / __NCPUBITS) * sizeof_cpu_mask.

Definition __CPUELT (cpu : Z) : Z := cpu / __NCPUBITS.
Definition __CPUMASK (cpu : Z) : Z := Z.shiftl 1 (cpu mod __NCPUBITS).

(** [__CPU_ISSET_S]: the processor number is converted to [size_t];
    a number beyond the size of the set is not a member. *)
Definition __CPU_ISSET_S (cpu setsize : Z) (set : cpu_set_t) : bool :=
  let __cpu := to_size_t cpu in
  if __cpu / 8 <? setsize then
    negb (Z.land (nth (Z.to_nat (__CPUELT __cpu)) (__bits set) 0)
                 (__CPUMASK __cpu) =? 0)
  else false.

Definition CPU_ISSET (cpu : Z) (set : cpu_set_t) : bool :=
  __CPU_ISSET_S cpu sizeof_cpu_set_t set.

(** The value of [_SC_NPROCESSORS_ONLN] in glibc's [<bits/confname.h>]. *)
Definition _SC_NPROCESSORS_ONLN : Z := 84.

End Glibc.

(** ** A scripted kernel

    A world that answers the two queries from a script and changes
    nothing: the test double used for the concrete scenarios. *)
Module Scripted.

Record kernel : Type := {
  getaffinity_ret : Z;
  getaffinity_set : Glibc.cpu_set_t;
  nprocessors_onln : Z
}.

Definition sched_getaffinity (pid size : Z) (k : kernel)
    : (Z * Glibc.cpu_set_t) * kernel :=
  ((getaffinity_ret k, getaffinity_set k), k).

Definition sysconf (name : Z) (k : kernel) : Z * kernel :=
  (if name =? Glibc._SC_NPROCESSORS_ONLN then nprocessors_onln k else -1, k).

(** A mask given by its first word; the other fifteen are zero. *)
Definition mask_of_word (word : Z) : Glibc.cpu_set_t :=
  {| Glibc.__bits := word :: repeat 0 15 |}.

(** The affinity query succeeds with the mask [word]; [nproc]
    processors are online. *)
Definition host (word nproc : Z) : kernel :=
  {| getaffinity_ret := 0;
     getaffinity_set := mask_of_word word;
     nprocessors_onln := nproc |}.

(** The affinity query fails. *)
Definition failing_host (word nproc : Z) : kernel :=
  {| getaffinity_ret := -1;
     getaffinity_set := mask_of_word word;
     nprocessors_onln := nproc |}.

(** Eight online processors, all of them allowed. *)
Definition unrestricted : kernel := host 255 8.

(** Eight online processors, of which 0, 2 and 4 are allowed. *)
Definition restricted : kernel := host 21 8.

(** Eight online processors; the mask also has bits 8 to 15 set. *)
Definition wide_mask : kernel := host 65535 8.

(** The affinity query fails. *)
Definition query_failed : kernel := failing_host 255 8.

(** The affinity query succeeds, the processor-count query reports
    its own failure, [-1]. *)
Definition count_failed : kernel := host 255 (-1).

End Scripted.

#[export] Instance glibc_scripted : LinuxAPI := {|
  World := Scripted.kernel;
  cpu_set_t := Glibc.cpu_set_t;
  CPU_SETSIZE := Glibc.__CPU_SETSIZE;
  sizeof_cpu_set_t := Glibc.sizeof_cpu_set_t;
  CPU_ISSET := Glibc.CPU_ISSET;
  _SC_NPROCESSORS_ONLN := Glibc._SC_NPROCESSORS_ONLN;
  sched_getaffinity := Scripted.sched_getaffinity;
  sysconf := Scripted.sysconf
|}.

(** Closes a decidable fact about a scripted host by evaluation. *)
Ltac scripted_fact := vm_compute; repeat split; discriminate.

(** ** Concrete scenarios *)

(** Eight online processors, no restriction: the query returns 8. *)
Example scenario_unrestricted :
  linux_sched_getaffinity 9 (Scripted.host 255 8) = (Some 8, Scripted.host 255 8).
Proof. vm_compute. reflexivity. Qed.

(** Restricted to processors 0, 2 and 4 (mask 0b10101): the query returns 3. *)
Example scenario_restricted :
  linux_sched_getaffinity 9 (Scripted.host 21 8) = (Some 3, Scripted.host 21 8).
Proof. vm_compute. reflexivity. Qed.

(** The function stops the loop at the condition, not at the fuel. *)
Example scenario_out_of_fuel :
  fst (linux_sched_getaffinity 8 (Scripted.host 255 8)) = None.
Proof. vm_compute. reflexivity. Qed.

(** The affinity query fails: the function returns [-1]. *)
Example scenario_query_failed :
  linux_sched_getaffinity 0 (Scripted.failing_host 255 8)
  = (Some (-1), Scripted.failing_host 255 8).
Proof. vm_compute. reflexivity. Qed.

(** ** Integer conversions *)

Lemma to_int_id (z : Z) : is_int z -> to_int z = z.
Proof.
  unfold is_int, INT_MIN, INT_MAX, to_int. intros Hz.
  rewrite Z.mod_small by lia. lia.
Qed.

Lemma to_long_id (z : Z) : is_long z -> to_long z = z.
Proof.
  unfold is_long, LONG_MIN, LONG_MAX, to_long. intros Hz.
  rewrite Z.mod_small by lia. lia.
Qed.

Lemma to_int_range (z : Z) : is_int (to_int z).
Proof.
  unfold is_int, INT_MIN, INT_MAX, to_int.
  pose proof (Z.mod_pos_bound (z + 2147483648) 4294967296 eq_refl). lia.
Qed.

Lemma long_add_1 (z : Z) : 0 <= z < LONG_MAX -> long_add z 1 = z + 1.
Proof.
  intros Hz. unfold long_add. apply to_long_id.
  unfold is_long, LONG_MIN, LONG_MAX in *. lia.
Qed.

(** ** The loop *)

Section Loop.
Context `{api : LinuxAPI}.

(** One evaluation of the loop condition. *)
Lemma for_loop_step (fuel : nat) (nproc : Z) (mask : cpu_set_t) (i count : Z) :
  for_loop (S fuel) nproc mask i count
  = if i <? nproc then
      for_loop fuel nproc mask (long_add i 1)
        (if CPU_ISSET i mask then long_add count 1 else count)
    else Some count.
Proof. reflexivity. Qed.

(** More fuel does not change a result already reached. *)
Lemma for_loop_fuel_S (fuel : nat) (nproc : Z) (mask : cpu_set_t) :
  forall i count c,
    for_loop fuel nproc mask i count = Some c ->
    for_loop (S fuel) nproc mask i count = Some c.
Proof.
  induction fuel as [|fuel IH]; intros i count c Hrun.
  - discriminate.
  - rewrite for_loop_step in Hrun. rewrite for_loop_step.
    destruct (i <? nproc); [|exact Hrun].
    apply IH in Hrun. exact Hrun.
Qed.

Lemma for_loop_fuel_le (fuel fuel' : nat) (nproc : Z) (mask : cpu_set_t) i count c :
  (fuel <= fuel')%nat ->
  for_loop fuel nproc mask i count = Some c ->
  for_loop fuel' nproc mask i count = Some c.
Proof.
  induction 1 as [|m Hle IH]; intros Hrun; [exact Hrun|].
  apply for_loop_fuel_S, IH, Hrun.
Qed.

(** The result of the loop does not depend on the fuel. *)
Lemma for_loop_functional (f1 f2 : nat) (nproc : Z) (mask : cpu_set_t) i count c1 c2 :
  for_loop f1 nproc mask i count = Some c1 ->
  for_loop f2 nproc mask i count = Some c2 ->
  c1 = c2.
Proof.
  intros H1 H2.
  apply (for_loop_fuel_le f1 (Nat.max f1 f2)) in H1; [|apply Nat.le_max_l].
  apply (for_loop_fuel_le f2 (Nat.max f1 f2)) in H2; [|apply Nat.le_max_r].
  congruence.
Qed.

(** A loop whose condition is false at once leaves the count as it is. *)
Lemma for_loop_exit (fuel : nat) (nproc : Z) (mask : cpu_set_t) i count :
  nproc <= i -> for_loop (S fuel) nproc mask i count = Some count.
Proof.
  intros Hle. rewrite for_loop_step.
  destruct (Z.ltb_spec i nproc); [lia|reflexivity].
Qed.

(** The loop invariant: started at processor [a] with [k] processors
    left, the loop adds to [count] the number of set processors among
    [a .. a + k - 1], in [k + 1] evaluations of its condition, and no
    [long] overflows on the way. *)
Lemma for_loop_from (mask : cpu_set_t) :
  forall (k a : nat) (count : Z),
    Z.of_nat (a + k) <= LONG_MAX ->
    0 <= count <= Z.of_nat a ->
    for_loop (S k) (Z.of_nat (a + k)) mask (Z.of_nat a) count
    = Some (count + Z.of_nat (length (filter (fun i => CPU_ISSET i mask)
                                            (map Z.of_nat (seq a k))))).
Proof.
  induction k as [|k IH]; intros a count Hmax Hcount.
  - rewrite for_loop_exit by lia. cbn. f_equal. lia.
  - rewrite for_loop_step.
    destruct (Z.ltb_spec (Z.of_nat a) (Z.of_nat (a + S k))) as [_|Hge]; [|lia].
    rewrite long_add_1 by lia.
    replace (Z.of_nat a + 1) with (Z.of_nat (S a)) by lia.
    replace (a + S k)%nat with (S a + k)%nat in * by lia.
    cbn [seq map filter].
    destruct (CPU_ISSET (Z.of_nat a) mask).
    + rewrite long_add_1 by lia.
      rewrite IH by lia. cbn [length]. f_equal. lia.
    + rewrite IH by lia. reflexivity.
Qed.

(** The whole loop computes [affinity_count]. *)
Lemma for_loop_counts (nproc : Z) (mask : cpu_set_t) :
  nproc <= LONG_MAX ->
  for_loop (S (Z.to_nat nproc)) nproc mask 0 0 = Some (affinity_count mask nproc).
Proof.
  intros Hmax. destruct (Z.le_gt_cases nproc 0) as [Hneg|Hpos].
  - rewrite for_loop_exit by lia.
    unfold affinity_count, cpus_in_mask, cpu_indices.
    replace (Z.to_nat nproc) with 0%nat by lia. reflexivity.
  - pose proof (for_loop_from mask (Z.to_nat nproc) 0 0) as Hloop.
    cbn [Nat.add] in Hloop. rewrite Z2Nat.id in Hloop by lia.
    change (Z.of_nat 0) with 0 in Hloop.
    rewrite Hloop by lia. reflexivity.
Qed.

(** ** Facts about the count *)

Lemma in_cpu_indices (nproc i : Z) : In i (cpu_indices nproc) <-> 0 <= i < nproc.
Proof.
  unfold cpu_indices. rewrite in_map_iff. split.
  - intros [j [<- Hj]]. apply in_seq in Hj. lia.
  - intros Hi. exists (Z.to_nat i). split; [lia|]. apply in_seq. lia.
Qed.

Lemma length_cpu_indices (nproc : Z) :
  Z.of_nat (length (cpu_indices nproc)) = Z.max 0 nproc.
Proof.
  unfold cpu_indices. rewrite length_map, length_seq. lia.
Qed.

Lemma NoDup_cpu_indices (nproc : Z) : NoDup (cpu_indices nproc).
Proof.
  unfold cpu_indices. apply Injective_map_NoDup.
  - intros x y Hxy. lia.
  - apply seq_NoDup.
Qed.

Lemma in_cpus_in_mask (mask : cpu_set_t) (nproc i : Z) :
  In i (cpus_in_mask mask nproc) <-> 0 <= i < nproc /\ CPU_ISSET i mask = true.
Proof.
  unfold cpus_in_mask. rewrite filter_In, in_cpu_indices. reflexivity.
Qed.

Lemma NoDup_cpus_in_mask (mask : cpu_set_t) (nproc : Z) :
  NoDup (cpus_in_mask mask nproc).
Proof. apply NoDup_filter, NoDup_cpu_indices. Qed.

Lemma affinity_count_nonneg (mask : cpu_set_t) (nproc : Z) :
  0 <= affinity_count mask nproc.
Proof. unfold affinity_count. lia. Qed.

(** The count never exceeds the number of processors looked at. *)
Lemma affinity_count_le_nproc (mask : cpu_set_t) (nproc : Z) :
  affinity_count mask nproc <= Z.max 0 nproc.
Proof.
  unfold affinity_count, cpus_in_mask.
  rewrite <- length_cpu_indices.
  apply inj_le, filter_length_le.
Qed.

Lemma affinity_count_nonpos (mask : cpu_set_t) (nproc : Z) :
  nproc <= 0 -> affinity_count mask nproc = 0.
Proof.
  intros Hle. pose proof (affinity_count_le_nproc mask nproc).
  pose proof (affinity_count_nonneg mask nproc). lia.
Qed.

(** Masks that agree below [nproc] have the same count. *)
Lemma affinity_count_ext (m1 m2 : cpu_set_t) (nproc : Z) :
  (forall i, 0 <= i < nproc -> CPU_ISSET i m1 = CPU_ISSET i m2) ->
  affinity_count m1 nproc = affinity_count m2 nproc.
Proof.
  intros Hagree. unfold affinity_count, cpus_in_mask. do 2 f_equal.
  apply filter_ext_in. intros i Hi. apply Hagree, in_cpu_indices, Hi.
Qed.

(** A duplicate-free list of exactly the set processors below [nproc]
    has [affinity_count] elements. *)
Lemma affinity_count_exact (mask : cpu_set_t) (nproc : Z) (cpus : list Z) :
  NoDup cpus ->
  (forall i, In i cpus <-> 0 <= i < nproc /\ CPU_ISSET i mask = true) ->
  affinity_count mask nproc = Z.of_nat (length cpus).
Proof.
  intros Hnodup Hexact. unfold affinity_count. f_equal.
  apply Permutation_length, NoDup_Permutation.
  - apply NoDup_cpus_in_mask.
  - exact Hnodup.
  - intros i. rewrite in_cpus_in_mask, Hexact. reflexivity.
Qed.

(** When every processor below [nproc] is set, the count is [nproc]. *)
Lemma affinity_count_full (mask : cpu_set_t) (nproc : Z) :
  (forall i, 0 <= i < nproc -> CPU_ISSET i mask = true) ->
  affinity_count mask nproc = Z.max 0 nproc.
Proof.
  intros Hall. rewrite <- length_cpu_indices.
  apply affinity_count_exact; [apply NoDup_cpu_indices|].
  intros i. rewrite in_cpu_indices. split; [|tauto].
  intros Hi. split; [exact Hi|apply Hall, Hi].
Qed.

End Loop.

(** ** The function, call by call *)

Section Probe.
Context `{api : LinuxAPI}.

(** With a mask of fixed capacity, the count fits that capacity. *)
Lemma affinity_count_le_capacity (mask : cpu_set_t) (nproc : Z) :
  cpu_set_bounded -> nproc <= LONG_MAX ->
  affinity_count mask nproc <= Z.max 0 CPU_SETSIZE.
Proof.
  intros [_ Hcap] Hmax. rewrite <- length_cpu_indices.
  apply inj_le, NoDup_incl_length; [apply NoDup_cpus_in_mask|].
  intros i Hi. apply in_cpus_in_mask in Hi. destruct Hi as [Hi Hset].
  apply in_cpu_indices. split; [lia|]. apply (Hcap i mask); [lia|exact Hset].
Qed.

(** So converting it to [int] leaves it as it is. *)
Lemma affinity_count_is_int (mask : cpu_set_t) (nproc : Z) :
  cpu_set_bounded -> nproc <= LONG_MAX ->
  to_int (affinity_count mask nproc) = affinity_count mask nproc.
Proof.
  intros Hb Hmax. apply to_int_id.
  pose proof (affinity_count_le_capacity mask nproc Hb Hmax).
  pose proof (affinity_count_nonneg mask nproc).
  destruct Hb as [Hint _]. unfold is_int, INT_MIN, INT_MAX in *. lia.
Qed.

(** The function in terms of what the call observes. *)
Lemma linux_sched_getaffinity_eq (fuel : nat) (w : World) :
  linux_sched_getaffinity fuel w
  = if query_ret w =? -1 then (Some (-1), world_after_query w)
    else (option_map to_int
            (for_loop fuel (online_cpu_count w) (query_mask w) 0 0),
          world_after_count w).
Proof.
  unfold linux_sched_getaffinity, bind, ret, query_ret, query_mask,
    online_cpu_count, world_after_count, world_after_query.
  destruct (sched_getaffinity 0 sizeof_cpu_set_t w) as [[rc mask] w1].
  cbn [fst snd]. destruct (rc =? -1); [reflexivity|].
  destruct (sysconf _SC_NPROCESSORS_ONLN w1) as [nproc w2]. reflexivity.
Qed.

(** The failure branch. *)
Lemma returns_failure (w : World) :
  query_ret w = -1 -> returns w (-1) (world_after_query w).
Proof.
  intros Hrc. exists 0%nat. rewrite linux_sched_getaffinity_eq, Hrc. reflexivity.
Qed.

(** The success branch, before the conversion to [int] is resolved. *)
Lemma returns_count (w : World) :
  query_ret w <> -1 -> online_cpu_count w <= LONG_MAX ->
  returns w (to_int (affinity_count (query_mask w) (online_cpu_count w)))
          (world_after_count w).
Proof.
  intros Hrc Hmax. exists (S (Z.to_nat (online_cpu_count w))).
  rewrite linux_sched_getaffinity_eq.
  destruct (Z.eqb_spec (query_ret w) (-1)) as [Heq|_]; [contradiction|].
  rewrite for_loop_counts by exact Hmax. reflexivity.
Qed.

(** Whatever the function returns came out of one of the two branches. *)
Lemma returns_inv (w w' : World) (r : Z) :
  returns w r w' ->
  (query_ret w = -1 /\ r = -1 /\ w' = world_after_query w) \/
  (query_ret w <> -1 /\ w' = world_after_count w /\
   exists fuel c,
     for_loop fuel (online_cpu_count w) (query_mask w) 0 0 = Some c /\
     r = to_int c).
Proof.
  intros [fuel Hrun]. rewrite linux_sched_getaffinity_eq in Hrun.
  destruct (Z.eqb_spec (query_ret w) (-1)) as [Heq|Hne].
  - left. inversion Hrun. auto.
  - right. split; [exact Hne|].
    destruct (for_loop fuel (online_cpu_count w) (query_mask w) 0 0)
      as [c|] eqn:Hloop; [|discriminate].
    inversion Hrun. split; [reflexivity|]. exists fuel, c. auto.
Qed.

(** On success the returned value is the converted count. *)
Lemma returns_success_inv (w w' : World) (r : Z) :
  query_ret w <> -1 -> online_cpu_count w <= LONG_MAX ->
  returns w r w' ->
  r = to_int (affinity_count (query_mask w) (online_cpu_count w)) /\
  w' = world_after_count w.
Proof.
  intros Hrc Hmax Hret. apply returns_inv in Hret.
  destruct Hret as [[Heq _]|[_ [Hw [fuel [c [Hloop Hr]]]]]]; [contradiction|].
  split; [|exact Hw]. subst r. f_equal.
  eapply for_loop_functional; [exact Hloop|].
  apply for_loop_counts, Hmax.
Qed.

(** The function has one result: the fuel only decides whether it is
    reached. *)
Lemma returns_functional (w w1 w2 : World) (r1 r2 : Z) :
  returns w r1 w1 -> returns w r2 w2 -> r1 = r2 /\ w1 = w2.
Proof.
  intros H1 H2. apply returns_inv in H1. apply returns_inv in H2.
  destruct H1 as [[Hf1 [Hr1 Hw1]]|[Hs1 [Hw1 [f1 [c1 [Hl1 Hr1]]]]]];
    destruct H2 as [[Hf2 [Hr2 Hw2]]|[Hs2 [Hw2 [f2 [c2 [Hl2 Hr2]]]]]];
    try contradiction.
  - subst. auto.
  - subst. split; [|reflexivity]. f_equal.
    eapply for_loop_functional; eassumption.
Qed.

End Probe.

(** ** The glibc instance *)

(** glibc's [CPU_ISSET] never reports a processor at or above
    [__CPU_SETSIZE]. *)
Lemma glibc_CPU_ISSET_capacity (cpu : Z) (set : Glibc.cpu_set_t) :
  0 <= cpu <= LONG_MAX -> Glibc.CPU_ISSET cpu set = true ->
  cpu < Glibc.__CPU_SETSIZE.
Proof.
  unfold Glibc.CPU_ISSET, Glibc.__CPU_ISSET_S, to_size_t, LONG_MAX.
  intros Hcpu Hset. rewrite Z.mod_small in Hset by lia.
  change Glibc.sizeof_cpu_set_t with 128 in Hset.
  change Glibc.__CPU_SETSIZE with 1024.
  destruct (Z.ltb_spec (cpu / 8) 128) as [Hlt|_]; [|discriminate].
  pose proof (Z.div_mod cpu 8 ltac:(lia)) as Hdiv.
  pose proof (Z.mod_pos_bound cpu 8 ltac:(lia)) as Hmod. lia.
Qed.

Lemma glibc_cpu_set_bounded : @cpu_set_bounded glibc_scripted.
Proof.
  split; [unfold INT_MAX; cbn; unfold Glibc.__CPU_SETSIZE; lia|].
  exact glibc_CPU_ISSET_capacity.
Qed.

Lemma scripted_read_only : @read_only_queries glibc_scripted.
Proof. split; reflexivity. Qed.

(** Within the capacity, glibc's [CPU_ISSET] reads bit [cpu mod 64] of
    word [cpu / 64]. *)
Lemma glibc_CPU_ISSET_testbit (cpu : Z) (set : Glibc.cpu_set_t) :
  0 <= cpu < Glibc.__CPU_SETSIZE ->
  Glibc.CPU_ISSET cpu set
  = Z.testbit (nth (Z.to_nat (cpu / 64)) (Glibc.__bits set) 0) (cpu mod 64).
Proof.
  unfold Glibc.CPU_ISSET, Glibc.__CPU_ISSET_S, to_size_t, Glibc.__CPUELT,
    Glibc.__CPUMASK.
  change Glibc.__CPU_SETSIZE with 1024. change Glibc.sizeof_cpu_set_t with 128.
  change Glibc.__NCPUBITS with 64.
  intros Hcpu. rewrite Z.mod_small by lia.
  destruct (Z.ltb_spec (cpu / 8) 128) as [_|Hge].
  2:{ assert (cpu / 8 < 128) by (apply Z.div_lt_upper_bound; lia). lia. }
  set (word := nth (Z.to_nat (cpu / 64)) (Glibc.__bits set) 0).
  assert (Hbit : 0 <= cpu mod 64) by (apply Z.mod_pos_bound; lia).
  destruct (Z.testbit word (cpu mod 64)) eqn:Htest.
  - destruct (Z.eqb_spec (Z.land word (Z.shiftl 1 (cpu mod 64))) 0) as [Hz|_];
      [|reflexivity].
    exfalso. apply (f_equal (fun z => Z.testbit z (cpu mod 64))) in Hz.
    rewrite Z.land_spec, Htest, Z.shiftl_spec, Z.sub_diag, Z.bits_0 in Hz by lia.
    discriminate.
  - destruct (Z.eqb_spec (Z.land word (Z.shiftl 1 (cpu mod 64))) 0) as [_|Hnz];
      [reflexivity|].
    exfalso. apply Hnz. apply Z.bits_inj'. intros n Hn.
    rewrite Z.land_spec, Z.bits_0.
    destruct (Z.eq_dec n (cpu mod 64)) as [->|Hneq].
    + rewrite Htest. reflexivity.
    + rewrite Z.shiftl_spec by lia.
      destruct (Z.ltb_spec n (cpu mod 64)).
      * rewrite (Z.testbit_neg_r 1) by lia. apply andb_false_r.
      * rewrite (Z.bits_above_log2 1) by (cbn; lia). apply andb_false_r.
Qed.

(** ** Properties of [linux_sched_getaffinity] *)

Section Claims.
Context `{api : LinuxAPI}.

(** C1.  When the affinity query succeeds, the function returns the
    number of processors [i] with [0 <= i < nproc] whose bit is set in
    the retrieved mask, where [nproc] is the online processor count;
    this is the count the loop accumulates, and no other value is
    returned. *)
Theorem returns_number_of_set_cpus (w : World) :
  cpu_set_bounded ->
  query_ret w <> -1 ->
  is_long (online_cpu_count w) ->
  returns w (affinity_count (query_mask w) (online_cpu_count w))
          (world_after_count w) /\
  forall r w', returns w r w' ->
    r = affinity_count (query_mask w) (online_cpu_count w).
Proof.
  intros Hb Hrc [_ Hmax].
  pose proof (returns_count w Hrc Hmax) as Hret.
  rewrite affinity_count_is_int in Hret by assumption.
  split; [exact Hret|].
  intros r w' Hr. apply (returns_functional w w' _ r _ Hr Hret).
Qed.

(** C2.  The function returns [-1] exactly when the affinity query
    fails; whenever the query does not fail the returned value is at
    least [0]. *)
Theorem sentinel_iff_query_failed (w : World) :
  cpu_set_bounded ->
  is_long (online_cpu_count w) ->
  (exists r w', returns w r w') /\
  forall r w', returns w r w' ->
    (r = -1 <-> query_ret w = -1) /\ (query_ret w <> -1 -> 0 <= r).
Proof.
  intros Hb [_ Hmax].
  destruct (Z.eq_dec (query_ret w) (-1)) as [Hfail|Hok].
  - split; [exists (-1), (world_after_query w); apply returns_failure, Hfail|].
    intros r w' Hr.
    destruct (returns_functional w _ _ _ _ Hr (returns_failure w Hfail)) as [-> _].
    split; [tauto|contradiction].
  - split; [eexists; eexists; apply returns_count; assumption|].
    intros r w' Hr.
    destruct (returns_success_inv w w' r Hok Hmax Hr) as [-> _].
    rewrite affinity_count_is_int by assumption.
    pose proof (affinity_count_nonneg (query_mask w) (online_cpu_count w)).
    split; [|intros _; assumption]. split; [lia|contradiction].
Qed.

(** C3.  When the affinity query succeeds, the returned value is an
    integer between [0] and the online processor count obtained from
    the separate query. *)
Theorem count_between_zero_and_online (w : World) :
  cpu_set_bounded ->
  query_ret w <> -1 ->
  is_long (online_cpu_count w) ->
  0 <= online_cpu_count w ->
  (exists r w', returns w r w') /\
  forall r w', returns w r w' -> 0 <= r <= online_cpu_count w.
Proof.
  intros Hb Hok [_ Hmax] Hpos.
  split; [eexists; eexists; apply returns_count; assumption|].
  intros r w' Hr.
  destruct (returns_success_inv w w' r Hok Hmax Hr) as [-> _].
  rewrite affinity_count_is_int by assumption.
  pose proof (affinity_count_nonneg (query_mask w) (online_cpu_count w)).
  pose proof (affinity_count_le_nproc (query_mask w) (online_cpu_count w)).
  lia.
Qed.

(** C4.  When the affinity query succeeds and the bits set below the
    online processor count are exactly the [K] processors of a
    duplicate-free list, the function returns [K]; in particular, when
    every online processor is set in the mask, it returns the online
    processor count. *)
Theorem restricted_to_K_returns_K (w : World) :
  cpu_set_bounded ->
  query_ret w <> -1 ->
  is_long (online_cpu_count w) ->
  (forall cpus : list Z,
     NoDup cpus ->
     (forall i, In i cpus <->
                0 <= i < online_cpu_count w /\ CPU_ISSET i (query_mask w) = true) ->
     returns w (Z.of_nat (length cpus)) (world_after_count w)) /\
  (0 <= online_cpu_count w ->
   (forall i, 0 <= i < online_cpu_count w -> CPU_ISSET i (query_mask w) = true) ->
   returns w (online_cpu_count w) (world_after_count w)).
Proof.
  intros Hb Hok [_ Hmax].
  pose proof (returns_count w Hok Hmax) as Hret.
  rewrite affinity_count_is_int in Hret by assumption.
  split.
  - intros cpus Hnodup Hexact.
    rewrite <- (affinity_count_exact (query_mask w) (online_cpu_count w) cpus)
      by assumption.
    exact Hret.
  - intros Hpos Hall.
    rewrite (affinity_count_full (query_mask w) _ Hall) in Hret.
    rewrite Z.max_r in Hret by exact Hpos. exact Hret.
Qed.

(** C5.  Once the affinity query has succeeded, the function returns,
    and what it returns is never the sentinel [-1], whatever [long] the
    processor-count query produced. *)
Theorem no_sentinel_after_successful_query (w : World) :
  cpu_set_bounded ->
  query_ret w <> -1 ->
  is_long (online_cpu_count w) ->
  (exists r w', returns w r w') /\
  forall r w', returns w r w' -> r <> -1.
Proof.
  intros Hb Hok [_ Hmax].
  split; [eexists; eexists; apply returns_count; assumption|].
  intros r w' Hr.
  destruct (returns_success_inv w w' r Hok Hmax Hr) as [-> _].
  rewrite affinity_count_is_int by assumption.
  pose proof (affinity_count_nonneg (query_mask w) (online_cpu_count w)). lia.
Qed.

(** C6.  When the affinity query succeeds and the processor-count query
    reports zero or a negative number, the function returns [0], not
    the sentinel. *)
Theorem nonpositive_online_count_returns_zero (w : World) :
  query_ret w <> -1 ->
  online_cpu_count w <= 0 ->
  returns w 0 (world_after_count w) /\
  forall r w', returns w r w' -> r = 0.
Proof.
  intros Hok Hle.
  assert (Hmax : online_cpu_count w <= LONG_MAX) by (unfold LONG_MAX; lia).
  pose proof (returns_count w Hok Hmax) as Hret.
  rewrite affinity_count_nonpos in Hret by exact Hle.
  change (to_int 0) with 0 in Hret.
  split; [exact Hret|].
  intros r w' Hr. apply (returns_functional w w' _ r _ Hr Hret).
Qed.

(** C7.  When the two operating-system queries leave the world as it
    is, so does the function: it returns in the world it was called
    in, and calling it again there returns the same value. *)
Theorem leaves_world_unchanged (w : World) :
  read_only_queries ->
  is_long (online_cpu_count w) ->
  (exists r, returns w r w) /\
  forall r1 w1, returns w r1 w1 ->
    w1 = w /\
    forall r2 w2, returns w1 r2 w2 -> r2 = r1 /\ w2 = w.
Proof.
  intros [Hquery Hcount] [_ Hmax].
  assert (Hw1 : world_after_query w = w) by apply Hquery.
  assert (Hw2 : world_after_count w = w).
  { unfold world_after_count. rewrite Hcount. exact Hw1. }
  assert (Hframe : forall r w', returns w r w' -> w' = w).
  { intros r w' Hr. apply returns_inv in Hr.
    destruct Hr as [[_ [_ ->]]|[_ [-> _]]]; assumption. }
  split.
  - destruct (Z.eq_dec (query_ret w) (-1)) as [Hfail|Hok].
    + exists (-1). rewrite <- Hw1 at 2. apply returns_failure, Hfail.
    + eexists. rewrite <- Hw2 at 2. apply returns_count; assumption.
  - intros r1 w1 Hr1. pose proof (Hframe r1 w1 Hr1) as ->.
    split; [reflexivity|]. intros r2 w2 Hr2.
    destruct (returns_functional w _ _ _ _ Hr2 Hr1) as [-> ->]. auto.
Qed.

(** C8.  The returned value is a function of what the call observes and
    of nothing else: two calls, in any two worlds, whose affinity
    queries succeed with the same mask and whose processor-count
    queries report the same number return the same value. *)
Theorem result_depends_only_on_observations (w1 w2 : World) :
  query_ret w1 <> -1 ->
  query_ret w2 <> -1 ->
  query_mask w1 = query_mask w2 ->
  online_cpu_count w1 = online_cpu_count w2 ->
  is_long (online_cpu_count w1) ->
  (exists r w1' w2', returns w1 r w1' /\ returns w2 r w2') /\
  forall r1 r2 w1' w2', returns w1 r1 w1' -> returns w2 r2 w2' -> r1 = r2.
Proof.
  intros Hok1 Hok2 Hmask Hcount [_ Hmax1].
  assert (Hmax2 : online_cpu_count w2 <= LONG_MAX) by (rewrite <- Hcount; exact Hmax1).
  split.
  - exists (to_int (affinity_count (query_mask w1) (online_cpu_count w1))),
      (world_after_count w1), (world_after_count w2).
    split; [apply returns_count; assumption|].
    rewrite Hmask, Hcount. apply returns_count; assumption.
  - intros r1 r2 w1' w2' Hr1 Hr2.
    destruct (returns_success_inv w1 w1' r1 Hok1 Hmax1 Hr1) as [-> _].
    destruct (returns_success_inv w2 w2' r2 Hok2 Hmax2 Hr2) as [-> _].
    rewrite Hmask, Hcount. reflexivity.
Qed.

(** C9.  The function always terminates: whatever [long] the
    processor-count query reports, zero and negative numbers included,
    the loop condition is evaluated at most [max 0 nproc + 1] times and
    the function returns. *)
Theorem always_terminates (w : World) :
  is_long (online_cpu_count w) ->
  exists r w',
    linux_sched_getaffinity (S (Z.to_nat (online_cpu_count w))) w = (Some r, w').
Proof.
  intros [_ Hmax]. rewrite linux_sched_getaffinity_eq.
  destruct (query_ret w =? -1).
  - exists (-1), (world_after_query w). reflexivity.
  - rewrite for_loop_counts by exact Hmax.
    eexists; eexists; reflexivity.
Qed.

(** C10.  Bits of the mask at or above the online processor count are
    ignored: two masks that agree below that count give the same
    result, and for every mask the result never exceeds the online
    processor count, whatever bits are set at higher indices. *)
Theorem bits_above_online_count_ignored (w1 w2 : World) :
  cpu_set_bounded ->
  query_ret w1 <> -1 ->
  query_ret w2 <> -1 ->
  online_cpu_count w1 = online_cpu_count w2 ->
  is_long (online_cpu_count w1) ->
  0 <= online_cpu_count w1 ->
  (forall i, 0 <= i < online_cpu_count w1 ->
             CPU_ISSET i (query_mask w1) = CPU_ISSET i (query_mask w2)) ->
  exists r,
    returns w1 r (world_after_count w1) /\
    returns w2 r (world_after_count w2) /\
    r <= online_cpu_count w1.
Proof.
  intros Hb Hok1 Hok2 Hcount [_ Hmax1] Hpos Hagree.
  assert (Hmax2 : online_cpu_count w2 <= LONG_MAX) by (rewrite <- Hcount; exact Hmax1).
  exists (affinity_count (query_mask w1) (online_cpu_count w1)).
  split; [|split].
  - rewrite <- (affinity_count_is_int _ _ Hb Hmax1) at 1.
    apply returns_count; assumption.
  - rewrite (affinity_count_ext _ (query_mask w2) _ Hagree), Hcount.
    rewrite <- (affinity_count_is_int _ _ Hb Hmax2) at 1.
    apply returns_count; assumption.
  - pose proof (affinity_count_le_nproc (query_mask w1) (online_cpu_count w1)).
    lia.
Qed.

End Claims.

(** ** The properties on the scripted glibc host *)

(** C1 on the restricted host: processors 0, 2 and 4 of eight. *)
Lemma returns_number_of_set_cpus_witness :
  returns Scripted.restricted 3 Scripted.restricted /\
  forall r w', returns Scripted.restricted r w' -> r = 3.
Proof.
  apply (returns_number_of_set_cpus (api := glibc_scripted) Scripted.restricted).
  - exact glibc_cpu_set_bounded.
  - scripted_fact.
  - scripted_fact.
Defined.

(** C2 on the host whose affinity query fails. *)
Lemma sentinel_iff_query_failed_witness :
  (exists r w', returns Scripted.query_failed r w') /\
  forall r w', returns Scripted.query_failed r w' ->
    (r = -1 <-> query_ret Scripted.query_failed = -1) /\
    (query_ret Scripted.query_failed <> -1 -> 0 <= r).
Proof.
  apply (sentinel_iff_query_failed (api := glibc_scripted) Scripted.query_failed).
  - exact glibc_cpu_set_bounded.
  - scripted_fact.
Defined.

(** C3 on the unrestricted host. *)
Lemma count_between_zero_and_online_witness :
  (exists r w', returns Scripted.unrestricted r w') /\
  forall r w', returns Scripted.unrestricted r w' -> 0 <= r <= 8.
Proof.
  apply (count_between_zero_and_online (api := glibc_scripted) Scripted.unrestricted).
  - exact glibc_cpu_set_bounded.
  - scripted_fact.
  - scripted_fact.
  - scripted_fact.
Defined.

(** C4 on the restricted host with the list [0; 2; 4], and on the
    unrestricted host, where all eight online processors are set. *)
Lemma restricted_to_K_returns_K_witness :
  returns Scripted.restricted (Z.of_nat (length [0; 2; 4])) Scripted.restricted /\
  returns Scripted.unrestricted 8 Scripted.unrestricted.
Proof.
  split.
  - apply (proj1 (restricted_to_K_returns_K (api := glibc_scripted) Scripted.restricted
                    glibc_cpu_set_bounded ltac:(scripted_fact) ltac:(scripted_fact))).
    + repeat constructor; cbn; intuition discriminate.
    + intros i. change (@online_cpu_count glibc_scripted Scripted.restricted) with 8.
      split.
      * intros [<-|[<-|[<-|[]]]]; (split; [lia|reflexivity]).
      * intros [Hi Hset].
        assert (Hcases : i = 0 \/ i = 1 \/ i = 2 \/ i = 3 \/ i = 4 \/ i = 5
                         \/ i = 6 \/ i = 7) by lia.
        cbn [In].
        destruct Hcases as [->|[->|[->|[->|[->|[->|[->| ->]]]]]]];
          try discriminate Hset; auto.
  - apply (proj2 (restricted_to_K_returns_K (api := glibc_scripted) Scripted.unrestricted
                    glibc_cpu_set_bounded ltac:(scripted_fact) ltac:(scripted_fact))).
    + scripted_fact.
    + intros i Hi.
      change (@online_cpu_count glibc_scripted Scripted.unrestricted) with 8 in Hi.
      assert (Hcases : i = 0 \/ i = 1 \/ i = 2 \/ i = 3 \/ i = 4 \/ i = 5
                       \/ i = 6 \/ i = 7) by lia.
      destruct Hcases as [->|[->|[->|[->|[->|[->|[->| ->]]]]]]]; reflexivity.
Defined.

(** C5 on the unrestricted host. *)
Lemma no_sentinel_after_successful_query_witness :
  (exists r w', returns Scripted.unrestricted r w') /\
  forall r w', returns Scripted.unrestricted r w' -> r <> -1.
Proof.
  apply (no_sentinel_after_successful_query (api := glibc_scripted) Scripted.unrestricted).
  - exact glibc_cpu_set_bounded.
  - scripted_fact.
  - scripted_fact.
Defined.

(** C6 on the host whose processor-count query reports [-1]. *)
Lemma nonpositive_online_count_returns_zero_witness :
  returns Scripted.count_failed 0 Scripted.count_failed /\
  forall r w', returns Scripted.count_failed r w' -> r = 0.
Proof.
  apply (nonpositive_online_count_returns_zero (api := glibc_scripted) Scripted.count_failed).
  - scripted_fact.
  - scripted_fact.
Defined.

(** C7 on the restricted host. *)
Lemma leaves_world_unchanged_witness :
  (exists r, returns Scripted.restricted r Scripted.restricted) /\
  forall r1 w1, returns Scripted.restricted r1 w1 ->
    w1 = Scripted.restricted /\
    forall r2 w2, returns w1 r2 w2 -> r2 = r1 /\ w2 = Scripted.restricted.
Proof.
  apply (leaves_world_unchanged (api := glibc_scripted) Scripted.restricted).
  - exact scripted_read_only.
  - scripted_fact.
Defined.

(** C8 on two hosts with the same mask and the same count, whose
    affinity queries succeed with different return values ([0] and
    [7]). *)
Lemma result_depends_only_on_observations_witness :
  (exists r w1' w2',
     returns Scripted.unrestricted r w1' /\
     returns {| Scripted.getaffinity_ret := 7;
                Scripted.getaffinity_set := Scripted.mask_of_word 255;
                Scripted.nprocessors_onln := 8 |} r w2') /\
  forall r1 r2 w1' w2',
    returns Scripted.unrestricted r1 w1' ->
    returns {| Scripted.getaffinity_ret := 7;
               Scripted.getaffinity_set := Scripted.mask_of_word 255;
               Scripted.nprocessors_onln := 8 |} r2 w2' ->
    r1 = r2.
Proof.
  apply (result_depends_only_on_observations (api := glibc_scripted) Scripted.unrestricted
           {| Scripted.getaffinity_ret := 7;
              Scripted.getaffinity_set := Scripted.mask_of_word 255;
              Scripted.nprocessors_onln := 8 |}).
  - scripted_fact.
  - scripted_fact.
  - reflexivity.
  - reflexivity.
  - scripted_fact.
Defined.

(** C9 on the host whose processor-count query reports [-1]: one
    evaluation of the loop condition. *)
Lemma always_terminates_witness :
  exists r w', linux_sched_getaffinity 1 Scripted.count_failed = (Some r, w').
Proof.
  apply (always_terminates (api := glibc_scripted) Scripted.count_failed). scripted_fact.
Defined.

(** C10 on the unrestricted host and the host whose mask
    has bits 8 to 15 set as well. *)
Lemma bits_above_online_count_ignored_witness :
  exists r,
    returns Scripted.unrestricted r Scripted.unrestricted /\
    returns Scripted.wide_mask r Scripted.wide_mask /\
    r <= 8.
Proof.
  apply (bits_above_online_count_ignored (api := glibc_scripted) Scripted.unrestricted Scripted.wide_mask).
  - exact glibc_cpu_set_bounded.
  - scripted_fact.
  - scripted_fact.
  - reflexivity.
  - scripted_fact.
  - scripted_fact.
  - intros i Hi. change (@online_cpu_count glibc_scripted Scripted.unrestricted) with 8 in Hi.
    assert (Hcases : i = 0 \/ i = 1 \/ i = 2 \/ i = 3 \/ i = 4 \/ i = 5
                     \/ i = 6 \/ i = 7) by lia.
    destruct Hcases as [->|[->|[->|[->|[->|[->|[->| ->]]]]]]]; reflexivity.
Defined.

(** ** Further properties of the loop and of the function *)

(** Counting with a weaker test never counts more. *)
Lemma filter_length_mono {A : Type} (f g : A -> bool) (l : list A) :
  (forall x, In x l -> f x = true -> g x = true) ->
  (length (filter f l) <= length (filter g l))%nat.
Proof.
  induction l as [|a l IH]; intros Himp; [apply Nat.le_refl|].
  assert (Hrest : (length (filter f l) <= length (filter g l))%nat).
  { apply IH. intros x Hx. apply Himp. right. exact Hx. }
  cbn [filter]. destruct (f a) eqn:Hfa.
  - rewrite (Himp a (or_introl eq_refl) Hfa). cbn [length]. lia.
  - destruct (g a); cbn [length]; lia.
Qed.

(** Nothing is counted exactly when the test fails everywhere. *)
Lemma filter_length_zero {A : Type} (f : A -> bool) (l : list A) :
  length (filter f l) = 0%nat <-> forall x, In x l -> f x = false.
Proof.
  induction l as [|a l IH]; [split; [intros _ x []|reflexivity]|].
  cbn [filter]. destruct (f a) eqn:Hfa.
  - split; [discriminate|].
    intros Hnone. rewrite (Hnone a (or_introl eq_refl)) in Hfa. discriminate.
  - rewrite IH. split.
    + intros Hl x [<-|Hx]; [exact Hfa|apply Hl, Hx].
    + intros Hall x Hx. apply Hall. right. exact Hx.
Qed.

(** Everything is counted only when the test holds everywhere. *)
Lemma filter_length_all {A : Type} (f : A -> bool) (l : list A) :
  length (filter f l) = length l -> forall x, In x l -> f x = true.
Proof.
  intros Hlen. apply forallb_forall, filter_length_forallb, Hlen.
Qed.

(** The processor numbers below [n2] are those below [n1] followed by
    those from [n1] on. *)
Lemma cpu_indices_app (n1 n2 : Z) :
  n1 <= n2 ->
  cpu_indices n2
  = cpu_indices n1
    ++ map Z.of_nat (seq (Z.to_nat n1) (Z.to_nat n2 - Z.to_nat n1)).
Proof.
  intros Hle. unfold cpu_indices.
  rewrite <- map_app, <- (seq_app (Z.to_nat n1)). do 2 f_equal. lia.
Qed.

Section Further.
Context `{api : LinuxAPI}.

(** Looking at more processors adds at most one per processor. *)
Lemma affinity_count_grow (mask : cpu_set_t) (n1 n2 : Z) :
  n1 <= n2 ->
  affinity_count mask n1 <= affinity_count mask n2
  <= affinity_count mask n1 + (Z.max 0 n2 - Z.max 0 n1).
Proof.
  intros Hle. unfold affinity_count, cpus_in_mask.
  rewrite (cpu_indices_app n1 n2 Hle), filter_app, length_app.
  pose proof (filter_length_le (fun i => CPU_ISSET i mask)
                (map Z.of_nat (seq (Z.to_nat n1) (Z.to_nat n2 - Z.to_nat n1))))
    as Hrest.
  rewrite length_map, length_seq in Hrest. lia.
Qed.

Lemma affinity_count_mono_mask (m1 m2 : cpu_set_t) (nproc : Z) :
  (forall i, 0 <= i < nproc -> CPU_ISSET i m1 = true -> CPU_ISSET i m2 = true) ->
  affinity_count m1 nproc <= affinity_count m2 nproc.
Proof.
  intros Hsub. unfold affinity_count, cpus_in_mask.
  apply inj_le, filter_length_mono. intros i Hi.
  apply Hsub, in_cpu_indices, Hi.
Qed.

Lemma affinity_count_zero_iff (mask : cpu_set_t) (nproc : Z) :
  affinity_count mask nproc = 0 <->
  forall i, 0 <= i < nproc -> CPU_ISSET i mask = false.
Proof.
  unfold affinity_count, cpus_in_mask.
  rewrite <- Nat2Z.inj_0, Nat2Z.inj_iff, filter_length_zero.
  split; intros Hnone i Hi; apply Hnone; apply in_cpu_indices; exact Hi.
Qed.

Lemma affinity_count_full_iff (mask : cpu_set_t) (nproc : Z) :
  0 <= nproc ->
  (affinity_count mask nproc = nproc <->
   forall i, 0 <= i < nproc -> CPU_ISSET i mask = true).
Proof.
  intros Hpos. split.
  - intros Hfull i Hi.
    apply (filter_length_all (fun i => CPU_ISSET i mask) (cpu_indices nproc)).
    + apply Nat2Z.inj. fold (cpus_in_mask mask nproc).
      fold (affinity_count mask nproc).
      rewrite length_cpu_indices. lia.
    + apply in_cpu_indices, Hi.
  - intros Hall. rewrite (affinity_count_full mask nproc Hall). lia.
Qed.

(** With [k] processors still to look at, [k] units of fuel are not
    enough: the condition has to be evaluated once more to leave the
    loop. *)
Lemma for_loop_short (mask : cpu_set_t) :
  forall (fuel k a : nat) (count : Z),
    (fuel <= k)%nat ->
    Z.of_nat (a + k) <= LONG_MAX ->
    for_loop fuel (Z.of_nat (a + k)) mask (Z.of_nat a) count = None.
Proof.
  induction fuel as [|fuel IH]; intros k a count Hfuel Hmax; [reflexivity|].
  destruct k as [|k]; [lia|].
  rewrite for_loop_step.
  destruct (Z.ltb_spec (Z.of_nat a) (Z.of_nat (a + S k))) as [_|Hge]; [|lia].
  rewrite long_add_1 by lia.
  replace (Z.of_nat a + 1) with (Z.of_nat (S a)) by lia.
  replace (a + S k)%nat with (S a + k)%nat in * by lia.
  apply IH; [lia|exact Hmax].
Qed.

(** After [k] rounds the loop is at processor [a + k] and has added the
    set processors among [a .. a + k - 1]. *)
Lemma for_loop_prefix (mask : cpu_set_t) (nproc : Z) (fuel : nat) :
  forall (k a : nat) (count : Z),
    Z.of_nat (a + k) <= nproc -> nproc <= LONG_MAX ->
    0 <= count <= Z.of_nat a ->
    for_loop (k + fuel) nproc mask (Z.of_nat a) count
    = for_loop fuel nproc mask (Z.of_nat (a + k))
        (count + Z.of_nat (length (filter (fun i => CPU_ISSET i mask)
                                          (map Z.of_nat (seq a k))))).
Proof.
  induction k as [|k IH]; intros a count Hk Hmax Hcount.
  - cbn. rewrite Nat.add_0_r, Z.add_0_r. reflexivity.
  - cbn [Nat.add]. rewrite for_loop_step.
    destruct (Z.ltb_spec (Z.of_nat a) nproc) as [_|Hge]; [|lia].
    rewrite long_add_1 by lia.
    replace (Z.of_nat a + 1) with (Z.of_nat (S a)) by lia.
    replace (a + S k)%nat with (S a + k)%nat in * by lia.
    cbn [seq map filter].
    destruct (CPU_ISSET (Z.of_nat a) mask).
    + rewrite long_add_1 by lia. rewrite IH by lia.
      cbn [length]. f_equal. lia.
    + rewrite IH by lia. reflexivity.
Qed.

(** X2.  When the affinity query succeeds the returned count never
    exceeds the capacity of the mask, however many processors are
    reported online. *)
Theorem count_within_mask_capacity (w : World) :
  cpu_set_bounded ->
  query_ret w <> -1 ->
  is_long (online_cpu_count w) ->
  exists r,
    returns w r (world_after_count w) /\ 0 <= r <= Z.max 0 CPU_SETSIZE.
Proof.
  intros Hb Hok [_ Hmax].
  exists (affinity_count (query_mask w) (online_cpu_count w)). split.
  - rewrite <- (affinity_count_is_int _ _ Hb Hmax) at 1.
    apply returns_count; assumption.
  - split; [apply affinity_count_nonneg|apply affinity_count_le_capacity; assumption].
Qed.

(** X3.  With the same mask, a larger online processor count never
    gives a smaller result, and the result grows by at most the number
    of processors added. *)
Theorem more_online_cpus_never_fewer (w1 w2 : World) :
  cpu_set_bounded ->
  query_ret w1 <> -1 ->
  query_ret w2 <> -1 ->
  query_mask w1 = query_mask w2 ->
  online_cpu_count w1 <= online_cpu_count w2 ->
  is_long (online_cpu_count w1) ->
  is_long (online_cpu_count w2) ->
  exists r1 r2,
    returns w1 r1 (world_after_count w1) /\
    returns w2 r2 (world_after_count w2) /\
    r1 <= r2 <= r1 + (Z.max 0 (online_cpu_count w2) - Z.max 0 (online_cpu_count w1)).
Proof.
  intros Hb Hok1 Hok2 Hmask Hle [_ Hmax1] [_ Hmax2].
  exists (affinity_count (query_mask w1) (online_cpu_count w1)),
    (affinity_count (query_mask w2) (online_cpu_count w2)).
  split; [|split].
  - rewrite <- (affinity_count_is_int _ _ Hb Hmax1) at 1.
    apply returns_count; assumption.
  - rewrite <- (affinity_count_is_int _ _ Hb Hmax2) at 1.
    apply returns_count; assumption.
  - rewrite <- Hmask. apply affinity_count_grow, Hle.
Qed.

(** X4.  With the same online processor count, a mask that allows every
    online processor another mask allows never gives a smaller
    result. *)
Theorem wider_mask_never_fewer (w1 w2 : World) :
  cpu_set_bounded ->
  query_ret w1 <> -1 ->
  query_ret w2 <> -1 ->
  online_cpu_count w1 = online_cpu_count w2 ->
  is_long (online_cpu_count w1) ->
  (forall i, 0 <= i < online_cpu_count w1 ->
             CPU_ISSET i (query_mask w1) = true ->
             CPU_ISSET i (query_mask w2) = true) ->
  exists r1 r2,
    returns w1 r1 (world_after_count w1) /\
    returns w2 r2 (world_after_count w2) /\
    r1 <= r2.
Proof.
  intros Hb Hok1 Hok2 Hcount [_ Hmax1] Hsub.
  assert (Hmax2 : online_cpu_count w2 <= LONG_MAX) by (rewrite <- Hcount; exact Hmax1).
  exists (affinity_count (query_mask w1) (online_cpu_count w1)),
    (affinity_count (query_mask w2) (online_cpu_count w2)).
  split; [|split].
  - rewrite <- (affinity_count_is_int _ _ Hb Hmax1) at 1.
    apply returns_count; assumption.
  - rewrite <- (affinity_count_is_int _ _ Hb Hmax2) at 1.
    apply returns_count; assumption.
  - rewrite <- Hcount. apply affinity_count_mono_mask, Hsub.
Qed.

(** X5.  When the affinity query succeeds, the function returns [0]
    exactly when no processor below the online count is set in the
    mask. *)
Theorem zero_iff_no_online_cpu_set (w : World) :
  cpu_set_bounded ->
  query_ret w <> -1 ->
  is_long (online_cpu_count w) ->
  exists r,
    returns w r (world_after_count w) /\
    (r = 0 <->
     forall i, 0 <= i < online_cpu_count w -> CPU_ISSET i (query_mask w) = false).
Proof.
  intros Hb Hok [_ Hmax].
  exists (affinity_count (query_mask w) (online_cpu_count w)). split.
  - rewrite <- (affinity_count_is_int _ _ Hb Hmax) at 1.
    apply returns_count; assumption.
  - apply affinity_count_zero_iff.
Qed.

(** X6.  When the affinity query succeeds and the online count is not
    negative, the function returns the online count exactly when every
    processor below it is set in the mask: a single excluded online
    processor makes the result smaller. *)
Theorem online_count_iff_all_set (w : World) :
  cpu_set_bounded ->
  query_ret w <> -1 ->
  is_long (online_cpu_count w) ->
  0 <= online_cpu_count w ->
  exists r,
    returns w r (world_after_count w) /\
    (r = online_cpu_count w <->
     forall i, 0 <= i < online_cpu_count w -> CPU_ISSET i (query_mask w) = true).
Proof.
  intros Hb Hok [_ Hmax] Hpos.
  exists (affinity_count (query_mask w) (online_cpu_count w)). split.
  - rewrite <- (affinity_count_is_int _ _ Hb Hmax) at 1.
    apply returns_count; assumption.
  - apply affinity_count_full_iff, Hpos.
Qed.

(** X7.  When the affinity query succeeds, the loop condition is
    evaluated exactly [max 0 nproc + 1] times, whatever the mask holds:
    the function has returned within a given number of evaluations
    exactly when that number exceeds [max 0 nproc]. *)
Theorem loop_condition_evaluations (w : World) (fuel : nat) :
  query_ret w <> -1 ->
  is_long (online_cpu_count w) ->
  (fst (linux_sched_getaffinity fuel w) <> None <->
   (Z.to_nat (online_cpu_count w) < fuel)%nat).
Proof.
  intros Hok [_ Hmax]. rewrite linux_sched_getaffinity_eq.
  destruct (Z.eqb_spec (query_ret w) (-1)) as [Heq|_]; [contradiction|].
  cbn [fst]. split.
  - intros Hsome.
    destruct (Nat.lt_ge_cases (Z.to_nat (online_cpu_count w)) fuel) as [Hlt|Hge];
      [exact Hlt|].
    exfalso. apply Hsome.
    destruct (Z.le_gt_cases (online_cpu_count w) 0) as [Hneg|Hpos].
    + replace fuel with 0%nat by lia. reflexivity.
    + pose proof (for_loop_short (query_mask w) fuel
                    (Z.to_nat (online_cpu_count w)) 0 0 Hge) as Hshort.
      cbn [Nat.add] in Hshort. rewrite Z2Nat.id in Hshort by lia.
      change (Z.of_nat 0) with 0 in Hshort.
      rewrite Hshort by exact Hmax. reflexivity.
  - intros Hlt.
    rewrite (for_loop_fuel_le (S (Z.to_nat (online_cpu_count w))) fuel _ _ _ _ _
               Hlt (for_loop_counts _ _ Hmax)).
    discriminate.
Qed.

(** X8.  The loop invariant: after [k] rounds, for [0 <= k <= nproc],
    the loop is at processor [k] with the number of set processors
    below [k] as its count, and no [long] has overflowed. *)
Theorem loop_state_after_k_rounds (nproc k : Z) (mask : cpu_set_t) (fuel : nat) :
  0 <= k <= nproc ->
  nproc <= LONG_MAX ->
  for_loop (Z.to_nat k + fuel) nproc mask 0 0
  = for_loop fuel nproc mask k (affinity_count mask k).
Proof.
  intros Hk Hmax.
  pose proof (for_loop_prefix mask nproc fuel (Z.to_nat k) 0 0) as Hpre.
  cbn [Nat.add] in Hpre. rewrite Z2Nat.id in Hpre by lia.
  change (Z.of_nat 0) with 0 in Hpre.
  rewrite Hpre by lia. reflexivity.
Qed.

End Further.

(** ** The further properties on concrete hosts *)

(** X2 on a host reporting 2000 online processors. *)
Lemma count_within_mask_capacity_witness :
  exists r,
    returns (Scripted.host 255 2000) r (Scripted.host 255 2000) /\
    0 <= r <= 1024.
Proof.
  apply (count_within_mask_capacity (api := glibc_scripted) (Scripted.host 255 2000)).
  - exact glibc_cpu_set_bounded.
  - scripted_fact.
  - scripted_fact.
Defined.

(** X3 on the restricted mask with eight and with sixteen online
    processors. *)
Lemma more_online_cpus_never_fewer_witness :
  exists r1 r2,
    returns Scripted.restricted r1 Scripted.restricted /\
    returns (Scripted.host 21 16) r2 (Scripted.host 21 16) /\
    r1 <= r2 <= r1 + 8.
Proof.
  apply (more_online_cpus_never_fewer (api := glibc_scripted)
           Scripted.restricted (Scripted.host 21 16)).
  - exact glibc_cpu_set_bounded.
  - scripted_fact.
  - scripted_fact.
  - reflexivity.
  - scripted_fact.
  - scripted_fact.
  - scripted_fact.
Defined.

(** X4 on the restricted and the unrestricted host. *)
Lemma wider_mask_never_fewer_witness :
  exists r1 r2,
    returns Scripted.restricted r1 Scripted.restricted /\
    returns Scripted.unrestricted r2 Scripted.unrestricted /\
    r1 <= r2.
Proof.
  apply (wider_mask_never_fewer (api := glibc_scripted)
           Scripted.restricted Scripted.unrestricted).
  - exact glibc_cpu_set_bounded.
  - scripted_fact.
  - scripted_fact.
  - reflexivity.
  - scripted_fact.
  - intros i Hi Hset.
    change (@online_cpu_count glibc_scripted Scripted.restricted) with 8 in Hi.
    assert (Hcases : i = 0 \/ i = 1 \/ i = 2 \/ i = 3 \/ i = 4 \/ i = 5
                     \/ i = 6 \/ i = 7) by lia.
    destruct Hcases as [->|[->|[->|[->|[->|[->|[->| ->]]]]]]]; reflexivity.
Defined.

(** X5 on the restricted host. *)
Lemma zero_iff_no_online_cpu_set_witness :
  exists r,
    returns Scripted.restricted r Scripted.restricted /\
    (r = 0 <->
     forall i, 0 <= i < 8 ->
               CPU_ISSET i (query_mask Scripted.restricted) = false).
Proof.
  apply (zero_iff_no_online_cpu_set (api := glibc_scripted) Scripted.restricted).
  - exact glibc_cpu_set_bounded.
  - scripted_fact.
  - scripted_fact.
Defined.

(** X6 on the unrestricted host. *)
Lemma online_count_iff_all_set_witness :
  exists r,
    returns Scripted.unrestricted r Scripted.unrestricted /\
    (r = 8 <->
     forall i, 0 <= i < 8 ->
               CPU_ISSET i (query_mask Scripted.unrestricted) = true).
Proof.
  apply (online_count_iff_all_set (api := glibc_scripted) Scripted.unrestricted).
  - exact glibc_cpu_set_bounded.
  - scripted_fact.
  - scripted_fact.
  - scripted_fact.
Defined.

(** X7 on the unrestricted host: nine evaluations for eight
    processors. *)
Lemma loop_condition_evaluations_witness :
  fst (linux_sched_getaffinity 9 Scripted.unrestricted) <> None <-> (8 < 9)%nat.
Proof.
  apply (loop_condition_evaluations (api := glibc_scripted) Scripted.unrestricted 9).
  - scripted_fact.
  - scripted_fact.
Defined.

(** X8 on the mask of processors 0, 2 and 4: after three of eight
    rounds the loop is at processor 3. *)
Lemma loop_state_after_k_rounds_witness :
  for_loop 9 8 (Scripted.mask_of_word 21) 0 0
  = for_loop 6 8 (Scripted.mask_of_word 21) 3
      (affinity_count (Scripted.mask_of_word 21) 3).
Proof.
  apply (loop_state_after_k_rounds (api := glibc_scripted) 8 3
           (Scripted.mask_of_word 21) 6).
  - lia.
  - unfold LONG_MAX. lia.
Defined.
